(** * Wordle leaderboard server: the score store and the ranker

    Shallow embedding of [services/leaderboard_service.py], [models.py]
    and the two views of [api/leaderboard.py] of the TapIn Wordle
    leaderboard server, and the properties of the in-memory score store
    ([LeaderboardService._scores]), of the ranking done by
    [LeaderboardService.get_leaderboard] and of the endpoints in front of
    them.

    Modelling choices:
    - a Python [int] is a [Z], a [str] a [string] (its UTF-8 bytes), an
      [Optional[str]] an [option string];
    - [_scores : Dict[str, List[Score]]] is a [gmap string (list Score.t)];
      the order in which a dict lists its keys is not modelled;
    - methods run in a state-and-exception monad over the store: a raised
      exception keeps whatever the store was at that point;
    - [random.choice] and [uuid.uuid4] read their outcome from an explicit
      [Entropy] argument. *)

From Stdlib Require Import ZArith Lia.
From stdpp Require Import gmap strings list fin_maps sorting.

Local Open Scope Z_scope.

(* ------------------------------------------------------------------ *)
(** ** models.py *)
(* ------------------------------------------------------------------ *)

Module Score.
Record t := mk {
  username : string;
  guesses : Z;
  time_seconds : Z;
  puzzle_date : string;
  id : string
}.
End Score.

Module LeaderboardEntry.
Record t := mk {
  rank : Z;
  username : string;
  guesses : Z;
  guesses_display : string;
  time_seconds : Z
}.
End LeaderboardEntry.

#[global] Instance Score_eq_dec : EqDecision Score.t.
Proof. solve_decision. Defined.

#[global] Instance LeaderboardEntry_eq_dec : EqDecision LeaderboardEntry.t.
Proof. solve_decision. Defined.

(* ------------------------------------------------------------------ *)
(** ** Python built-ins used by the service *)
(* ------------------------------------------------------------------ *)

Module Py.

(** [a < b] on tuples of two ints: the first components that differ
    decide, as in Python's lexicographic tuple comparison. *)
Definition tuple_lt (a b : Z * Z) : bool :=
  if a.1 =? b.1 then a.2 <? b.2 else a.1 <? b.1.

Section Sorted.
Context {A K : Type} (lt : K → K → bool) (key : A → K).

(** [x] goes in front of the first element whose key is not smaller
    than its own, so it stays ahead of the equal keys that followed it
    in the input. *)
Fixpoint insert_by (x : A) (l : list A) : list A :=
  match l with
  | [] => [x]
  | y :: l' =>
      if lt (key y) (key x) then y :: insert_by x l' else x :: y :: l'
  end.

(** [sorted(l, key=key)]: a new list, sorted by key with [<] alone, and
    stable (the built-in guarantees stability); the input is left as it
    is. *)
Definition sorted (l : list A) : list A := foldr insert_by [] l.
End Sorted.

(** [l[:stop]]: a negative [stop] counts from the end. *)
Definition slice_to {A : Type} (l : list A) (stop : Z) : list A :=
  if 0 <=? stop then take (Z.to_nat stop) l
  else take (Z.to_nat (Z.of_nat (length l) + stop)) l.

(** [enumerate(l, start)] *)
Fixpoint enumerate {A : Type} (l : list A) (start : Z) : list (Z * A) :=
  match l with
  | [] => []
  | x :: l' => (start, x) :: enumerate l' (start + 1)
  end.

(** [s * n] on strings: [n] copies of [s] one after the other, and the
    empty string for [n <= 0]. *)
Fixpoint str_repeat (s : string) (n : nat) : string :=
  match n with
  | O => ""
  | S n' => s +:+ str_repeat s n'
  end.

Definition str_mul (s : string) (n : Z) : string :=
  str_repeat s (Z.to_nat n).

(** Truth value of an [Optional[str]]: [None] and [""] are false. *)
Definition truthy (o : option string) : bool :=
  match o with
  | None => false
  | Some s => negb (bool_decide (s = ""%string))
  end.

(** [random.choice(seq)] on a non-empty sequence, the index drawn being
    [draw mod len(seq)]. *)
Definition choice (draw : nat) (seq : list string) : string :=
  nth (draw mod length seq)%nat seq ""%string.

End Py.

(** What one call of [submit_score] reads from the random sources. *)
Record Entropy := mkEntropy {
  adjective_draw : nat;
  noun_draw : nat;
  uuid4 : string
}.

(* ------------------------------------------------------------------ *)
(** ** The state-and-exception monad of the service *)
(* ------------------------------------------------------------------ *)

Inductive exn :=
| ValueError (msg : string)
| KeyError (key : string).

Inductive result (A : Type) :=
| Return (a : A)
| Raise (e : exn).
Arguments Return {A} a.
Arguments Raise {A} e.

Abbreviation Store := (gmap string (list Score.t)).

Definition M (A : Type) : Type := Store → result A * Store.

#[global] Instance M_ret : MRet M := λ A (a : A) s, (Return a, s).

#[global] Instance M_bind : MBind M := λ A B (k : A → M B) (m : M A) s,
  match m s with
  | (Return a, s') => k a s'
  | (Raise e, s') => (Raise e, s')
  end.

Definition raise {A} (e : exn) : M A := λ s, (Raise e, s).

(** [key in self._scores] *)
Definition contains (key : string) : M bool :=
  λ s, (Return (bool_decide (is_Some (s !! key))), s).

(** [self._scores[key] = v] *)
Definition setitem (key : string) (v : list Score.t) : M unit :=
  λ s, (Return tt, <[key := v]> s).

(** [self._scores[key].append(x)]: the subscript raises [KeyError] on a
    missing key. *)
Definition getitem_append (key : string) (x : Score.t) : M unit :=
  λ s, match s !! key with
       | Some l => (Return tt, <[key := l ++ [x]]> s)
       | None => (Raise (KeyError key), s)
       end.

(** [self._scores.get(key, default)] *)
Definition dict_get (key : string) (default : list Score.t)
    : M (list Score.t) :=
  λ s, (Return (from_option id default (s !! key)), s).

(** [self._scores.pop(key, None)] *)
Definition dict_pop (key : string) : M unit :=
  λ s, (Return tt, delete key s).

(** [self._scores.clear()] *)
Definition dict_clear : M unit :=
  λ _, (Return tt, ∅).

(** [list(self._scores.keys())] *)
Definition dict_keys : M (list string) :=
  λ s, (Return ((map_to_list s).*1), s).

(* ------------------------------------------------------------------ *)
(** ** services/leaderboard_service.py *)
(* ------------------------------------------------------------------ *)

Definition ADJECTIVES : list string := [
  "Swift"; "Brave"; "Clever"; "Mighty"; "Noble";
  "Bold"; "Quick"; "Sharp"; "Bright"; "Keen";
  "Agile"; "Fierce"; "Lucky"; "Calm"; "Wise";
  "Golden"; "Silver"; "Cosmic"; "Epic"; "Grand";
  "Royal"; "Mystic"; "Ancient"; "Stellar"; "Thunder"
]%string.

Definition NOUNS : list string := [
  "Falcon"; "Otter"; "Wolf"; "Eagle"; "Bear";
  "Tiger"; "Lion"; "Hawk"; "Fox"; "Deer";
  "Panda"; "Koala"; "Shark"; "Dragon"; "Phoenix";
  "Mustang"; "Aggie"; "Knight"; "Warrior"; "Champion";
  "Legend"; "Pioneer"; "Voyager"; "Ranger"; "Scout"
]%string.

(** The marker literal of [_format_guesses_emoji], with the bytes it has in
    the source file. *)
Definition MARKER : string := "游릴".

Definition generate_username (rnd : Entropy) : string :=
  let adjective := Py.choice (adjective_draw rnd) ADJECTIVES in
  let noun := Py.choice (noun_draw rnd) NOUNS in
  adjective +:+ noun.

Definition submit_score (guesses time_seconds : Z) (puzzle_date : string)
    (username : option string) (rnd : Entropy) : M Score.t :=
  if negb ((1 <=? guesses) && (guesses <=? 6)) then
    raise (ValueError "Guesses must be between 1 and 6")
  else
    let username :=
      match username with
      | None => generate_username rnd
      | Some u => u
      end in
    let score :=
      Score.mk username guesses time_seconds puzzle_date (uuid4 rnd) in
    present ← contains puzzle_date;
    (if negb present then setitem puzzle_date [] else mret tt);;
    getitem_append puzzle_date score;;
    mret score.

Definition _format_guesses_emoji (guesses : Z) : string :=
  Py.str_mul MARKER guesses.

(** The key of the [sorted] call: [lambda s: (s.guesses, s.time_seconds)]. *)
Definition sort_key (s : Score.t) : Z * Z :=
  (Score.guesses s, Score.time_seconds s).

(** The [LeaderboardEntry(...)] built for one [rank, score] of the loop. *)
Definition make_entry (rank : Z) (score : Score.t) : LeaderboardEntry.t :=
  LeaderboardEntry.mk rank (Score.username score) (Score.guesses score)
    (_format_guesses_emoji (Score.guesses score)) (Score.time_seconds score).

(** The body of the [for rank, score in enumerate(...)] loop. *)
Definition append_entry (entries : list LeaderboardEntry.t)
    (item : Z * Score.t) : list LeaderboardEntry.t :=
  let '(rank, score) := item in
  entries ++ [make_entry rank score].

Definition get_leaderboard (puzzle_date : string) (limit : Z)
    : M (list LeaderboardEntry.t) :=
  scores ← dict_get puzzle_date [];
  let sorted_scores := Py.sorted Py.tuple_lt sort_key scores in
  let top_scores := Py.slice_to sorted_scores limit in
  let entries := fold_left append_entry (Py.enumerate top_scores 1) [] in
  mret entries.

Definition get_all_dates : M (list string) := dict_keys.

Definition clear_scores (puzzle_date : option string) : M unit :=
  if Py.truthy puzzle_date then
    match puzzle_date with
    | Some d => dict_pop d
    | None => mret tt
    end
  else dict_clear.

(** One call on the service, and the store it leaves behind. *)
Inductive call :=
| SubmitScore (guesses time_seconds : Z) (puzzle_date : string)
    (username : option string) (rnd : Entropy)
| GetLeaderboard (puzzle_date : string) (limit : Z)
| GetAllDates
| ClearScores (puzzle_date : option string).

Definition exec (c : call) (s : Store) : Store :=
  match c with
  | SubmitScore g t d u rnd => (submit_score g t d u rnd s).2
  | GetLeaderboard d limit => (get_leaderboard d limit s).2
  | GetAllDates => (get_all_dates s).2
  | ClearScores d => (clear_scores d s).2
  end.

(** The stores a service can be in: [__init__] makes the empty one, and
    every call, failed or not, leads from one to the next. *)
Inductive reachable : Store → Prop :=
| reachable_init : reachable ∅
| reachable_step s c : reachable s → reachable (exec c s).

(* ------------------------------------------------------------------ *)
(** ** Vocabulary of the specification *)
(* ------------------------------------------------------------------ *)

(** The records stored for a day, none if the day has no entry. *)
Definition day (s : Store) (puzzle_date : string) : list Score.t :=
  from_option id [] (s !! puzzle_date).

Definition valid_guesses (sc : Score.t) : Prop := 1 ≤ Score.guesses sc ≤ 6.

(** Every record of every day satisfies [P]. *)
Definition all_scores (P : Score.t → Prop) (s : Store) : Prop :=
  map_Forall (λ _ scores, Forall P scores) s.

(** [a] may stand before [b] on a leaderboard: fewer guesses, or as many
    and no more time. *)
Definition key_le (a b : Z * Z) : Prop :=
  a.1 < b.1 ∨ (a.1 = b.1 ∧ a.2 ≤ b.2).

(** The order a relation on keys puts on the records. *)
Definition key_ordered {A K : Type} (le : relation K) (key : A → K)
    : relation A :=
  λ x y, le (key x) (key y).

(** The names [generate_username] can produce. *)
Definition generated (name : string) : Prop :=
  ∃ adjective noun,
    adjective ∈ ADJECTIVES ∧ noun ∈ NOUNS ∧ name = adjective +:+ noun.

(** [n] markers in a row, nothing between them. *)
Definition repeat_marker (n : nat) : string :=
  String.concat "" (replicate n MARKER).

(** How many markers a string is made of, if it is made of markers only. *)
Definition marker_units (s : string) : option nat :=
  let n := (String.length s / String.length MARKER)%nat in
  if decide (s = repeat_marker n) then Some n else None.

(** The loop of [get_leaderboard] makes one entry per record, ranks
    counting up from 1. *)
Definition entries_of (top : list Score.t) : list LeaderboardEntry.t :=
  imap (λ i sc, make_entry (1 + Z.of_nat i) sc) top.

(** The record a call of [submit_score] constructs once the guesses have
    passed the range check. *)
Definition score_of (guesses time_seconds : Z) (puzzle_date : string)
    (username : option string) (rnd : Entropy) : Score.t :=
  Score.mk (default (generate_username rnd) username)
    guesses time_seconds puzzle_date (uuid4 rnd).

(* ------------------------------------------------------------------ *)
(** ** Concrete runs *)
(* ------------------------------------------------------------------ *)

(** The first two submissions of scenario A, in order of arrival. *)
Definition first_two : Store :=
  exec (SubmitScore 3 95 "2026-02-02" None (mkEntropy 1 1 "id-2"))
    (exec (SubmitScore 4 120 "2026-02-02" None (mkEntropy 0 0 "id-1")) ∅).

(** Scenario A: a third submission after those two. *)
Definition scenario_A : Store :=
  exec (SubmitScore 3 200 "2026-02-02" None (mkEntropy 2 2 "id-3")) first_two.

(** One submission with a negative time, sent straight to the service. *)
Definition negative_time : Store :=
  exec (SubmitScore 1 (-1) "2026-02-02" None (mkEntropy 0 0 "id-1")) ∅.

(** Two players tie on guesses and time; a third, faster one comes in
    between. *)
Definition scenario_ties : Store :=
  exec (SubmitScore 3 95 "2026-02-02" (Some "Cid"%string)
          (mkEntropy 0 0 "id-3"))
    (exec (SubmitScore 2 50 "2026-02-02" (Some "Bob"%string)
             (mkEntropy 0 0 "id-2"))
       (exec (SubmitScore 3 95 "2026-02-02" (Some "Ann"%string)
                (mkEntropy 0 0 "id-1")) ∅)).

(* ------------------------------------------------------------------ *)
(** ** models.py: [to_dict] and [from_dict] *)
(* ------------------------------------------------------------------ *)

(** The values a dict holds when it is decoded from JSON or made by
    [to_dict]. Python's [True] and [False] are the ints 1 and 0 for [==],
    [<=] and [*]; the store keeps ints up to [==]. *)
#[local] Unset Elimination Schemes.
Inductive json :=
| JNull
| JBool (b : bool)
| JInt (n : Z)
| JFloat (literal : string)
| JStr (s : string)
| JArray (items : list json)
| JObject (members : list (string * json)).
#[local] Set Elimination Schemes.

(** What a [Score(...)] call makes of arguments of any type: a dataclass
    checks no annotation, each field holds the value it was given. *)
Module Dyn.
Record t := mk {
  username : json;
  guesses : json;
  time_seconds : json;
  puzzle_date : json;
  id : json
}.
End Dyn.

(** The [Score] objects whose fields have their annotated types. *)
Definition of_score (s : Score.t) : Dyn.t :=
  Dyn.mk (JStr (Score.username s)) (JInt (Score.guesses s))
    (JInt (Score.time_seconds s)) (JStr (Score.puzzle_date s))
    (JStr (Score.id s)).

#[global] Instance result_ret : MRet result := λ A (a : A), Return a.

#[global] Instance result_bind : MBind result :=
  λ A B (k : A → result B) (m : result A),
    match m with
    | Return a => k a
    | Raise e => Raise e
    end.

(** [data[key]] on a dict *)
Definition getitem (data : gmap string json) (key : string) : result json :=
  match data !! key with
  | Some v => Return v
  | None => Raise (KeyError key)
  end.

(** [Score.to_dict] *)
Definition Score_to_dict (self : Score.t) : gmap string json :=
  <["id" := JStr (Score.id self)]>
  (<["username" := JStr (Score.username self)]>
  (<["guesses" := JInt (Score.guesses self)]>
  (<["time_seconds" := JInt (Score.time_seconds self)]>
  (<["puzzle_date" := JStr (Score.puzzle_date self)]> ∅)))).

(** [Score.from_dict]: the arguments of [cls(...)] are evaluated in the
    order they are written. *)
Definition Score_from_dict (data : gmap string json) (rnd : Entropy)
    : result Dyn.t :=
  let id := default (JStr (uuid4 rnd)) (data !! "id"%string) in
  username ← getitem data "username";
  guesses ← getitem data "guesses";
  time_seconds ← getitem data "time_seconds";
  puzzle_date ← getitem data "puzzle_date";
  mret (Dyn.mk username guesses time_seconds puzzle_date id).

(** [LeaderboardEntry.to_dict] *)
Definition LeaderboardEntry_to_dict (self : LeaderboardEntry.t)
    : gmap string json :=
  <["rank" := JInt (LeaderboardEntry.rank self)]>
  (<["username" := JStr (LeaderboardEntry.username self)]>
  (<["guesses" := JInt (LeaderboardEntry.guesses self)]>
  (<["guesses_display" := JStr (LeaderboardEntry.guesses_display self)]>
  (<["time_seconds" := JInt (LeaderboardEntry.time_seconds self)]> ∅)))).

(* ------------------------------------------------------------------ *)
(** ** api/leaderboard.py *)
(* ------------------------------------------------------------------ *)

(** A [str] is a sequence of code points: in its UTF-8 bytes a code point
    is a byte that is no continuation byte (10xxxxxx) and the continuation
    bytes after it. *)
Definition is_continuation (c : Ascii.ascii) : bool :=
  (128 <=? Ascii.nat_of_ascii c)%nat && (Ascii.nat_of_ascii c <? 192)%nat.

Fixpoint code_points (s : string) : list string :=
  match s with
  | EmptyString => []
  | String c s' =>
      match s' with
      | String c' _ =>
          if is_continuation c' then
            match code_points s' with
            | g :: gs => String c g :: gs
            | [] => [String c EmptyString]
            end
          else String c EmptyString :: code_points s'
      | EmptyString => [String c EmptyString]
      end
  end.

(** [len(s)] and [s[i]] on a [str] *)
Definition str_len (s : string) : Z := Z.of_nat (length (code_points s)).

Definition str_at (s : string) (i : nat) : option string := code_points s !! i.

(** [isinstance(v, int)] with the int it is: [bool] is a subclass of
    [int]. *)
Definition as_int (v : json) : option Z :=
  match v with
  | JInt n => Some n
  | JBool b => Some (if b then 1 else 0)
  | _ => None
  end.

(** [isinstance(v, str)] with the string it is *)
Definition as_str (v : json) : option string :=
  match v with
  | JStr s => Some s
  | _ => None
  end.

(** The JSON documents the handlers answer with, next to their status:
    [{"success": False, "error": error}], the same with the error
    [f"Internal server error: {str(e)}"], the answer to a submission and
    the answer to a leaderboard request. *)
Inductive body :=
| Failure (error : string)
| InternalFailure (e : exn)
| ScoreCreated (score : gmap string json)
| Leaderboard (puzzle_date : string) (leaderboard : list (gmap string json)).

Definition required_fields : list string :=
  ["guesses"; "time_seconds"; "puzzle_date"]%string.

(** The [try] block of the [submit_score] view, from the point where
    [request.get_json()] has returned. [data] is what it returned: [None]
    or the dict of a JSON object; bodies that are JSON but no object (an
    array, a string, a number) are not covered. *)
Definition submit_score_try (data : option (gmap string json))
    (rnd : Entropy) : M (body * Z) :=
  match data with
  | None => mret (Failure "Request body must be JSON", 400)
  | Some data =>
      if (size data =? 0)%nat then
        mret (Failure "Request body must be JSON", 400)
      else
        let missing_fields :=
          filter (λ field, data !! field = None) required_fields in
        if negb (length missing_fields =? 0)%nat then
          mret (Failure ("Missing required fields: "
                         +:+ String.concat ", " missing_fields), 400)
        else
          guesses ← (λ s, (getitem data "guesses", s));
          time_seconds ← (λ s, (getitem data "time_seconds", s));
          puzzle_date ← (λ s, (getitem data "puzzle_date", s));
          match as_int guesses with
          | Some g =>
              if negb ((1 <=? g) && (g <=? 6)) then
                mret (Failure "guesses must be an integer between 1 and 6",
                      400)
              else
                match as_int time_seconds with
                | Some t =>
                    if t <? 0 then
                      mret (Failure
                              "time_seconds must be a non-negative integer",
                            400)
                    else
                      match as_str puzzle_date with
                      | Some d =>
                          if negb (str_len d =? 10) then
                            mret (Failure
                                    "puzzle_date must be in YYYY-MM-DD format",
                                  400)
                          else
                            score ← submit_score g t d None rnd;
                            mret (ScoreCreated (Score_to_dict score), 201)
                      | None =>
                          mret (Failure
                                  "puzzle_date must be in YYYY-MM-DD format",
                                400)
                      end
                | None =>
                    mret (Failure
                            "time_seconds must be a non-negative integer",
                          400)
                end
          | None =>
              mret (Failure "guesses must be an integer between 1 and 6", 400)
          end
  end.

(** The [except] clauses: a [ValueError] becomes a 400 with its message,
    any other exception a 500. *)
Definition handle (run : M (body * Z)) : Store → (body * Z) * Store :=
  λ s, match run s with
       | (Return response, s') => (response, s')
       | (Raise (ValueError msg), s') => ((Failure msg, 400), s')
       | (Raise e, s') => ((InternalFailure e, 500), s')
       end.

(** The view of [POST /api/leaderboard/score] *)
Definition api_submit_score (data : option (gmap string json))
    (rnd : Entropy) : Store → (body * Z) * Store :=
  handle (submit_score_try data rnd).

(** The [try] block of the [get_leaderboard] view. [limit] is what
    [request.args.get("limit", default=5, type=int)] returned. *)
Definition get_leaderboard_try (puzzle_date : string) (limit : Z)
    : M (body * Z) :=
  if negb (str_len puzzle_date =? 10)
     || negb (bool_decide (str_at puzzle_date 4 = Some "-"%string))
     || negb (bool_decide (str_at puzzle_date 7 = Some "-"%string)) then
    mret (Failure "Invalid date format. Use YYYY-MM-DD", 400)
  else
    let limit := Z.min (Z.max 1 limit) 10 in
    entries ← get_leaderboard puzzle_date limit;
    let leaderboard_data := LeaderboardEntry_to_dict <$> entries in
    mret (Leaderboard puzzle_date leaderboard_data, 200).

(** The view of [GET /api/leaderboard/<puzzle_date>] *)
Definition api_get_leaderboard (puzzle_date : string) (limit : Z)
    : Store → (body * Z) * Store :=
  handle (get_leaderboard_try puzzle_date limit).

(** A request to one of the two endpoints, and the stores the server goes
    through when requests are all that touches the service. *)
Inductive request :=
| PostScore (data : option (gmap string json)) (rnd : Entropy)
| GetLeaderboardFor (puzzle_date : string) (limit : Z).

Definition serve (r : request) (s : Store) : (body * Z) * Store :=
  match r with
  | PostScore data rnd => api_submit_score data rnd s
  | GetLeaderboardFor d limit => api_get_leaderboard d limit s
  end.

Inductive served : Store → Prop :=
| served_init : served ∅
| served_step s r : served s → served (serve r s).2.

(** A request body with the three fields *)
Definition score_body (guesses time_seconds puzzle_date : json)
    : gmap string json :=
  <["guesses" := guesses]>
  (<["time_seconds" := time_seconds]>
  (<["puzzle_date" := puzzle_date]> ∅)).

(** The bodies the [submit_score] view lets through to the service: a
    dict with an int (or bool) [guesses] in 1..6, an int (or bool)
    [time_seconds] that is not negative and a [puzzle_date] that is a
    string of 10 characters; [g], [t] and [d] are the three values. *)
Definition accepted (data : option (gmap string json)) (g t : Z)
    (d : string) : Prop :=
  ∃ m vg vt,
    data = Some m
    ∧ m !! "guesses"%string = Some vg ∧ as_int vg = Some g ∧ 1 ≤ g ≤ 6
    ∧ m !! "time_seconds"%string = Some vt ∧ as_int vt = Some t ∧ 0 ≤ t
    ∧ m !! "puzzle_date"%string = Some (JStr d) ∧ str_len d = 10.

(** The dates the [get_leaderboard] view lets through: 10 characters, the
    fifth and the eighth a dash. *)
Definition date_shaped (d : string) : Prop :=
  str_len d = 10
  ∧ str_at d 4 = Some "-"%string ∧ str_at d 7 = Some "-"%string.

(** What holds of a record that came in through the endpoints. *)
Definition posted (d : string) (sc : Score.t) : Prop :=
  (1 ≤ Score.guesses sc ≤ 6)
  ∧ 0 ≤ Score.time_seconds sc
  ∧ Score.puzzle_date sc = d
  ∧ str_len d = 10
  ∧ generated (Score.username sc).

(** Three requests: a score for a well-formed date, a look at its board,
    and a score for a date of 10 characters without dashes. *)
Definition served_example : Store :=
  (serve (PostScore (Some (score_body (JInt 2) (JInt 40) (JStr "20260202xx")))
            (mkEntropy 3 3 "id-2"))
     (serve (GetLeaderboardFor "2026-02-02" 5)
        (serve (PostScore
                  (Some (score_body (JBool true) (JInt 75) (JStr "2026-02-02")))
                  (mkEntropy 0 0 "id-1")) ∅).2).2).2.

(** A day that is in the dict has a record, and every record is filed
    under its own [puzzle_date]. *)
Definition filed (d : string) (scores : list Score.t) : Prop :=
  scores ≠ [] ∧ Forall (λ sc, Score.puzzle_date sc = d) scores.


(* ------------------------------------------------------------------ *)
(** ** The built-ins: sorting, slicing, enumerating *)
(* ------------------------------------------------------------------ *)

Section SortedFacts.
Context {A K : Type} `{!EqDecision K}.
Context (lt : K → K → bool) (le : relation K) (key : A → K).
Hypothesis lt_le : ∀ a b, lt a b = true → le a b.
Hypothesis nlt_le : ∀ a b, lt a b = false → le b a.
Hypothesis lt_irrefl : ∀ a, lt a a = false.
Hypothesis le_trans : Transitive le.

Lemma insert_by_Permutation x l : Py.insert_by lt key x l ≡ₚ x :: l.
Proof.
  induction l as [|y l IH]; simpl; [done|].
  destruct (lt (key y) (key x)); [|done].
  rewrite IH. apply Permutation_swap.
Qed.

Lemma sorted_Permutation l : Py.sorted lt key l ≡ₚ l.
Proof.
  induction l as [|x l IH]; simpl; [done|].
  by rewrite insert_by_Permutation, IH.
Qed.

Lemma length_sorted l : length (Py.sorted lt key l) = length l.
Proof. by rewrite sorted_Permutation. Qed.

Lemma insert_by_StronglySorted x l :
  StronglySorted (key_ordered le key) l →
  StronglySorted (key_ordered le key) (Py.insert_by lt key x l).
Proof.
  induction 1 as [|y l Hl IH Hy]; simpl.
  - repeat constructor.
  - destruct (lt (key y) (key x)) eqn:Hyx.
    + constructor; [done|].
      rewrite insert_by_Permutation. constructor; [|done].
      by apply lt_le.
    + constructor; [by constructor|].
      constructor; [by apply nlt_le|].
      eapply Forall_impl; [exact Hy|].
      intros z Hz. unfold key_ordered in *.
      etrans; [|exact Hz]. by apply nlt_le.
Qed.

Lemma sorted_StronglySorted l :
  StronglySorted (key_ordered le key) (Py.sorted lt key l).
Proof.
  induction l as [|x l IH]; simpl; [constructor|].
  by apply insert_by_StronglySorted.
Qed.

(** Stability: the records of one key come out in the order they went in. *)
Lemma filter_insert_by k x l :
  filter (λ a, key a = k) (Py.insert_by lt key x l)
  = filter (λ a, key a = k) (x :: l).
Proof.
  induction l as [|y l IH]; simpl; [done|].
  destruct (lt (key y) (key x)) eqn:Hyx; [|done].
  rewrite !filter_cons in *.
  destruct (decide (key y = k)) as [Hy|Hy], (decide (key x = k)) as [Hx|Hx];
    try (by rewrite IH).
  rewrite Hy, Hx, lt_irrefl in Hyx. done.
Qed.

Lemma filter_sorted k l :
  filter (λ a, key a = k) (Py.sorted lt key l) = filter (λ a, key a = k) l.
Proof.
  induction l as [|x l IH]; simpl; [done|].
  rewrite filter_insert_by, !filter_cons. by rewrite IH.
Qed.

(** The contract of the built-in fixes its result: a list that is sorted
    by key and holds, for every key, the same records in the same order
    as the input is the list computed here, whatever algorithm made it. *)
Lemma stable_sorted_unique l1 l2 :
  (∀ a b, le a b → le b a → a = b) →
  StronglySorted (key_ordered le key) l1 →
  StronglySorted (key_ordered le key) l2 →
  (∀ k, filter (λ a, key a = k) l1 = filter (λ a, key a = k) l2) →
  l1 = l2.
Proof.
  intros le_antisym Hl1. revert l2.
  induction Hl1 as [|x l1 Hl1 IH Hx]; intros l2 Hl2 Hfilter.
  - destruct l2 as [|y l2]; [done|].
    specialize (Hfilter (key y)). rewrite filter_cons_True in Hfilter by done.
    done.
  - destruct Hl2 as [|y l2 Hl2 Hy].
    { specialize (Hfilter (key x)).
      rewrite filter_cons_True in Hfilter by done. done. }
    assert (Hxy : key x = key y).
    { pose proof (Hfilter (key x)) as Hfx. pose proof (Hfilter (key y)) as Hfy.
      rewrite filter_cons_True in Hfx by done.
      rewrite (filter_cons_True _ y) in Hfy by done.
      assert (Hxin : x ∈ y :: l2).
      { eapply (list_elem_of_filter (λ a, key a = key x)).
        rewrite <- Hfx. apply list_elem_of_here. }
      assert (Hyin : y ∈ x :: l1).
      { eapply (list_elem_of_filter (λ a, key a = key y)).
        rewrite Hfy. apply list_elem_of_here. }
      rewrite Forall_forall in Hx, Hy.
      apply elem_of_cons in Hxin as [->|Hxin]; [done|].
      apply elem_of_cons in Hyin as [->|Hyin]; [done|].
      apply le_antisym; [by apply Hx|by apply Hy]. }
    assert (x = y) as <-.
    { specialize (Hfilter (key x)).
      rewrite filter_cons_True in Hfilter by done.
      rewrite filter_cons_True in Hfilter by done.
      by injection Hfilter. }
    f_equal. apply IH; [done|]. intros k. specialize (Hfilter k).
    rewrite !filter_cons in Hfilter.
    destruct (decide (key x = k)); [by injection Hfilter|done].
Qed.

Lemma sorted_unique l l' :
  (∀ a b, le a b → le b a → a = b) →
  StronglySorted (key_ordered le key) l' →
  (∀ k, filter (λ a, key a = k) l' = filter (λ a, key a = k) l) →
  l' = Py.sorted lt key l.
Proof.
  intros le_antisym Hl' Hfilter.
  apply stable_sorted_unique; [done..|apply sorted_StronglySorted|].
  intros k. by rewrite filter_sorted.
Qed.
End SortedFacts.

Lemma tuple_lt_le a b : Py.tuple_lt a b = true → key_le a b.
Proof. unfold Py.tuple_lt, key_le. destruct (Z.eqb_spec a.1 b.1); lia. Qed.

Lemma tuple_nlt_le a b : Py.tuple_lt a b = false → key_le b a.
Proof. unfold Py.tuple_lt, key_le. destruct (Z.eqb_spec a.1 b.1); lia. Qed.

Lemma tuple_lt_irrefl a : Py.tuple_lt a a = false.
Proof. unfold Py.tuple_lt. rewrite Z.eqb_refl. lia. Qed.

#[global] Instance key_le_trans : Transitive key_le.
Proof. unfold key_le. intros a b c. lia. Qed.

Lemma key_le_antisym a b : key_le a b → key_le b a → a = b.
Proof.
  unfold key_le. destruct a as [g t], b as [g' t']; simpl.
  intros ? ?. f_equal; lia.
Qed.

(** What [sorted_scores] is in [get_leaderboard], in the terms of the
    built-in's contract and of nothing else. *)
Lemma sorted_scores_unique (scores sorted_scores : list Score.t) :
  StronglySorted (key_ordered key_le sort_key) sorted_scores →
  (∀ k, filter (λ sc, sort_key sc = k) sorted_scores
        = filter (λ sc, sort_key sc = k) scores) →
  sorted_scores = Py.sorted Py.tuple_lt sort_key scores.
Proof.
  apply sorted_unique;
    auto using tuple_lt_le, tuple_nlt_le, tuple_lt_irrefl, key_le_trans,
      key_le_antisym.
Qed.

Lemma slice_to_take {A} (l : list A) (stop : Z) :
  ∃ n, Py.slice_to l stop = take n l.
Proof. unfold Py.slice_to. destruct (0 <=? stop); eauto. Qed.

Lemma slice_to_prefix {A} (l : list A) (stop : Z) :
  Py.slice_to l stop `prefix_of` l.
Proof.
  destruct (slice_to_take l stop) as [n ->].
  exists (drop n l). by rewrite take_drop.
Qed.

Lemma length_slice_to {A} (l : list A) (stop : Z) :
  0 ≤ stop →
  length (Py.slice_to l stop) = Z.to_nat (Z.min stop (Z.of_nat (length l))).
Proof.
  intros Hstop. unfold Py.slice_to.
  destruct (Z.leb_spec 0 stop); [|lia].
  rewrite length_take. lia.
Qed.

Lemma slice_to_nil {A} (stop : Z) : Py.slice_to (@nil A) stop = [].
Proof. unfold Py.slice_to. destruct (0 <=? stop); by rewrite take_nil. Qed.

Lemma filter_prefix {A} (P : A → Prop) `{!∀ x, Decision (P x)}
    (l1 l2 : list A) :
  l1 `prefix_of` l2 → filter P l1 `prefix_of` filter P l2.
Proof. intros [k ->]. rewrite filter_app. by eexists. Qed.

Lemma StronglySorted_prefix {A} (R : relation A) (l1 l2 : list A) :
  l1 `prefix_of` l2 → StronglySorted R l2 → StronglySorted R l1.
Proof. intros [k ->]. apply StronglySorted_app_1_l. Qed.

Lemma StronglySorted_lookup {A} (R : relation A) (l : list A) i j x y :
  StronglySorted R l → l !! i = Some x → l !! j = Some y → (i < j)%nat →
  R x y.
Proof.
  intros Hl. revert i j. induction Hl as [|z l Hl IH Hz]; intros i j Hi Hj Hij.
  - by rewrite lookup_nil in Hi.
  - destruct j as [|j]; [lia|]. simpl in Hj. destruct i as [|i]; simpl in Hi.
    + injection Hi as ->. rewrite Forall_forall in Hz.
      apply Hz. by eapply list_elem_of_lookup_2.
    + apply (IH i j); [done..|lia].
Qed.

Lemma fold_append_entry items acc :
  fold_left append_entry items acc
  = acc ++ map (λ item, make_entry item.1 item.2) items.
Proof.
  revert acc. induction items as [|[rank sc] items IH]; intros acc; simpl.
  - by rewrite app_nil_r.
  - rewrite IH. by rewrite <- app_assoc.
Qed.

Lemma map_enumerate_imap top start :
  map (λ item, make_entry item.1 item.2) (Py.enumerate top start)
  = imap (λ i sc, make_entry (start + Z.of_nat i) sc) top.
Proof.
  revert start. induction top as [|sc top IH]; intros start; simpl; [done|].
  rewrite Z.add_0_r. f_equal. rewrite IH. apply imap_ext.
  intros i x _. simpl. f_equal. lia.
Qed.

Lemma get_leaderboard_run d limit s :
  get_leaderboard d limit s
  = (Return (entries_of
       (Py.slice_to (Py.sorted Py.tuple_lt sort_key (day s d)) limit)), s).
Proof.
  unfold get_leaderboard, mbind, M_bind, dict_get, mret, M_ret. simpl.
  by rewrite fold_append_entry, map_enumerate_imap.
Qed.

Lemma lookup_entries_of top i :
  entries_of top !! i = make_entry (1 + Z.of_nat i) <$> top !! i.
Proof. unfold entries_of. by rewrite list_lookup_imap. Qed.

Lemma elem_of_entries_of e top :
  e ∈ entries_of top →
  ∃ i sc, top !! i = Some sc ∧ e = make_entry (1 + Z.of_nat i) sc.
Proof.
  intros (i & Hi)%list_elem_of_lookup_1. rewrite lookup_entries_of in Hi.
  destruct (top !! i) as [sc|] eqn:Hsc; simplify_eq/=. eauto.
Qed.

Lemma length_entries_of top : length (entries_of top) = length top.
Proof. unfold entries_of. by rewrite length_imap. Qed.

Lemma rank_entries_of top :
  LeaderboardEntry.rank <$> entries_of top
  = (λ i, 1 + Z.of_nat i) <$> seq 0 (length top).
Proof.
  apply list_eq. intros i. rewrite !list_lookup_fmap, lookup_entries_of.
  destruct (top !! i) as [sc|] eqn:Hsc; simpl.
  - rewrite lookup_seq_lt; [done|]. by eapply lookup_lt_Some.
  - rewrite lookup_seq_ge; [done|]. by apply lookup_ge_None.
Qed.

(* ------------------------------------------------------------------ *)
(** ** [submit_score] and the store *)
(* ------------------------------------------------------------------ *)

Lemma submit_score_Raise g t d u rnd s :
  ¬ (1 ≤ g ≤ 6) →
  submit_score g t d u rnd s
  = (Raise (ValueError "Guesses must be between 1 and 6"), s).
Proof.
  intros Hg. unfold submit_score.
  destruct (Z.leb_spec 1 g), (Z.leb_spec g 6); simpl; try done; lia.
Qed.

(** In range, the call returns the new record and leaves it at the end of
    its day; the subscript of line 165 finds the key, the list having been
    created two lines above when it was missing. *)
Lemma submit_score_Return g t d u rnd s :
  1 ≤ g ≤ 6 →
  submit_score g t d u rnd s
  = (Return (score_of g t d u rnd),
     <[d := day s d ++ [score_of g t d u rnd]]> s).
Proof.
  intros Hg. unfold submit_score.
  destruct (Z.leb_spec 1 g), (Z.leb_spec g 6); try lia. simpl.
  unfold mbind, M_bind, contains, getitem_append, setitem, mret, M_ret, day.
  unfold score_of. destruct u as [u|]; simpl.
  all: destruct (s !! d) as [l|] eqn:Hd; simpl.
  all: rewrite ?bool_decide_eq_true_2, ?bool_decide_eq_false_2
         by (rewrite ?Hd; eauto using is_Some_None); simpl.
  all: rewrite ?lookup_insert_eq, ?Hd, ?insert_insert_eq; done.
Qed.

Lemma submit_score_cases g t d u rnd s :
  (1 ≤ g ≤ 6 ∧
   submit_score g t d u rnd s
   = (Return (score_of g t d u rnd),
      <[d := day s d ++ [score_of g t d u rnd]]> s))
  ∨ (¬ (1 ≤ g ≤ 6) ∧
     submit_score g t d u rnd s
     = (Raise (ValueError "Guesses must be between 1 and 6"), s)).
Proof.
  destruct (decide (1 ≤ g ≤ 6)) as [Hg|Hg].
  - left. split; [done|]. by apply submit_score_Return.
  - right. split; [done|]. by apply submit_score_Raise.
Qed.

Lemma clear_scores_run d s :
  clear_scores d s
  = (Return tt,
     if Py.truthy d then from_option (λ k, delete k s) s d else ∅).
Proof.
  unfold clear_scores. destruct d as [k|]; simpl; [|done]. by case_match.
Qed.

Lemma day_Forall (P : Score.t → Prop) s d :
  all_scores P s → Forall P (day s d).
Proof.
  intros Hs. unfold day. destruct (s !! d) as [l|] eqn:Hd; simpl; [|done].
  exact (Hs d l Hd).
Qed.

(** A step keeps every property of records that the new record of a
    successful submission has. *)
Lemma exec_all_scores (P : Score.t → Prop) c s :
  (∀ g t d u rnd, 1 ≤ g ≤ 6 → P (score_of g t d u rnd)) →
  all_scores P s → all_scores P (exec c s).
Proof.
  intros Hnew Hs. destruct c as [g t d u rnd|d limit| |d]; cbn [exec].
  - destruct (submit_score_cases g t d u rnd s) as [[Hg ->]|[Hg ->]]; simpl;
      [|done].
    apply map_Forall_insert_2; [|done].
    apply Forall_app. split; [by apply day_Forall|]. repeat constructor. auto.
  - by rewrite get_leaderboard_run.
  - done.
  - rewrite clear_scores_run. simpl. destruct (Py.truthy d).
    + destruct d as [k|]; simpl; [|done]. by apply map_Forall_delete.
    + apply map_Forall_empty.
Qed.

Lemma reachable_all_scores (P : Score.t → Prop) s :
  (∀ g t d u rnd, 1 ≤ g ≤ 6 → P (score_of g t d u rnd)) →
  reachable s → all_scores P s.
Proof.
  intros Hnew. induction 1 as [|s c _ IH].
  - apply map_Forall_empty.
  - by apply exec_all_scores.
Qed.

Lemma reachable_valid_guesses s : reachable s → all_scores valid_guesses s.
Proof. apply reachable_all_scores. intros g t d u rnd Hg. exact Hg. Qed.

(* ------------------------------------------------------------------ *)
(** ** Usernames and the guesses display *)
(* ------------------------------------------------------------------ *)

Lemma choice_elem_of draw seq : seq ≠ [] → Py.choice draw seq ∈ seq.
Proof.
  intros Hseq. unfold Py.choice. apply list_elem_of_In, nth_In.
  apply Nat.mod_upper_bound. by destruct seq.
Qed.

Lemma generate_username_generated rnd : generated (generate_username rnd).
Proof.
  exists (Py.choice (adjective_draw rnd) ADJECTIVES),
    (Py.choice (noun_draw rnd) NOUNS).
  split_and!; [by apply choice_elem_of..|done].
Qed.

Lemma generated_nonempty name : generated name → name ≠ ""%string.
Proof.
  intros (adjective & noun & Ha & _ & ->) Hempty.
  destruct adjective; [|done].
  apply list_elem_of_In in Ha. simpl in Ha. intuition discriminate.
Qed.

Lemma string_length_app (s1 s2 : string) :
  String.length (s1 +:+ s2) = (String.length s1 + String.length s2)%nat.
Proof. induction s1 as [|c s1 IH]; simpl; [done|]. by rewrite IH. Qed.

Lemma repeat_marker_S n : repeat_marker (S n) = MARKER +:+ repeat_marker n.
Proof.
  unfold repeat_marker. destruct n as [|n]; reflexivity.
Qed.

(** Python's [MARKER * n] is the separator-free concatenation of [n]
    markers. *)
Lemma str_repeat_marker n : Py.str_repeat MARKER n = repeat_marker n.
Proof.
  induction n as [|n IH]; [done|].
  rewrite repeat_marker_S, <- IH. done.
Qed.

Lemma length_repeat_marker n :
  String.length (repeat_marker n) = (n * String.length MARKER)%nat.
Proof.
  induction n as [|n IH]; [done|].
  rewrite repeat_marker_S, string_length_app, IH. lia.
Qed.

Lemma marker_units_repeat n : marker_units (repeat_marker n) = Some n.
Proof.
  unfold marker_units. rewrite length_repeat_marker, Nat.div_mul by done.
  by rewrite decide_True.
Qed.

Lemma scenario_A_reachable : reachable scenario_A.
Proof.
  unfold scenario_A, first_two. repeat apply reachable_step.
  apply reachable_init.
Qed.

(* ------------------------------------------------------------------ *)
(** ** The store invariant *)
(* ------------------------------------------------------------------ *)

(** C1, as stated, fails: the service checks the guesses only, so a
    reachable store can hold a record whose [time_seconds] is negative. *)
Lemma store_invariant_time_counterexample :
  ¬ (∀ s, reachable s →
       ∀ d scores sc, s !! d = Some scores → sc ∈ scores →
         (1 ≤ Score.guesses sc ≤ 6) ∧ 0 ≤ Score.time_seconds sc).
Proof.
  intros H.
  pose (sc := Score.mk "SwiftFalcon" 1 (-1) "2026-02-02" "id-1").
  destruct (H negative_time (reachable_step _ _ reachable_init)
              "2026-02-02"%string [sc] sc) as [_ Ht].
  - vm_compute. reflexivity.
  - apply list_elem_of_here.
  - simpl in Ht. lia.
Qed.

(** C1, amended: in every reachable store every record has its guesses
    in 1..6; the service does not look at [time_seconds]: with guesses in
    range, [submit_score] accepts any time, negative ones too, and stores
    the record with the time it was given. *)
Theorem store_invariant_guesses (s : Store) :
  reachable s →
  (∀ d scores sc, s !! d = Some scores → sc ∈ scores →
     1 ≤ Score.guesses sc ≤ 6)
  ∧ (∀ g t d u rnd, 1 ≤ g ≤ 6 →
       ∃ sc, submit_score g t d u rnd s
             = (Return sc, <[d := day s d ++ [sc]]> s)
             ∧ Score.guesses sc = g ∧ Score.time_seconds sc = t).
Proof.
  intros Hs. split.
  - intros d scores sc Hd Hsc.
    pose proof (reachable_valid_guesses s Hs d scores Hd) as Hall.
    rewrite Forall_forall in Hall. by apply Hall.
  - intros g t d u rnd Hg. exists (score_of g t d u rnd).
    by rewrite submit_score_Return.
Qed.

Lemma store_invariant_guesses_witness :
  reachable scenario_A ∧
  (∀ d scores sc, scenario_A !! d = Some scores → sc ∈ scores →
     1 ≤ Score.guesses sc ≤ 6)
  ∧ (∀ g t d u rnd, 1 ≤ g ≤ 6 →
       ∃ sc, submit_score g t d u rnd scenario_A
             = (Return sc, <[d := day scenario_A d ++ [sc]]> scenario_A)
             ∧ Score.guesses sc = g ∧ Score.time_seconds sc = t).
Proof.
  split; [exact scenario_A_reachable|].
  apply (store_invariant_guesses scenario_A). exact scenario_A_reachable.
Defined.

(* ------------------------------------------------------------------ *)
(** ** Rejected submissions *)
(* ------------------------------------------------------------------ *)

(** C2: with guesses outside 1..6, [submit_score] raises [ValueError] and
    hands back the store it was given; the day has as many records as
    before. *)
Theorem submit_score_invalid_guesses (s : Store) g t d u rnd :
  g < 1 ∨ 6 < g →
  submit_score g t d u rnd s
  = (Raise (ValueError "Guesses must be between 1 and 6"), s)
  ∧ length (day (submit_score g t d u rnd s).2 d) = length (day s d).
Proof.
  intros Hg. rewrite submit_score_Raise by lia. done.
Qed.

Lemma submit_score_invalid_guesses_witness :
  submit_score 7 30 "2026-02-02" None (mkEntropy 0 0 "id-4") scenario_A
  = (Raise (ValueError "Guesses must be between 1 and 6"), scenario_A)
  ∧ length (day (submit_score 7 30 "2026-02-02" None (mkEntropy 0 0 "id-4")
                   scenario_A).2 "2026-02-02")
    = length (day scenario_A "2026-02-02").
Proof. apply (submit_score_invalid_guesses scenario_A 7 30). lia. Defined.

(* ------------------------------------------------------------------ *)
(** ** Usernames *)
(* ------------------------------------------------------------------ *)

(** C3, as stated, fails: the service generates a name only when
    [username is None]; the empty string is a username like any other and
    is stored as it is. *)
Lemma empty_username_counterexample :
  ¬ (∀ (s : Store) g t d u rnd sc s',
       u = None ∨ u = Some ""%string →
       submit_score g t d u rnd s = (Return sc, s') →
       generated (Score.username sc)).
Proof.
  intros H.
  refine (generated_nonempty "" _ eq_refl).
  apply (H ∅ 3 95 "2026-02-02"%string (Some ""%string) (mkEntropy 0 0 "id-1")
           (Score.mk "" 3 95 "2026-02-02" "id-1")
           {["2026-02-02"%string :=
               [Score.mk "" 3 95 "2026-02-02" "id-1"]]}); [by right|].
  vm_compute. reflexivity.
Qed.

(** C3, amended: a successful [submit_score] without a username ([None])
    returns and stores a record whose username is an adjective of
    [ADJECTIVES] followed, with nothing in between, by a noun of [NOUNS]; a
    username that is given, the empty string included, is stored as it is. *)
Theorem submit_score_username (s : Store) g t d u rnd sc s' :
  submit_score g t d u rnd s = (Return sc, s') →
  match u with
  | None => generated (Score.username sc)
  | Some name => Score.username sc = name
  end
  ∧ last (day s' d) = Some sc.
Proof.
  intros Hrun.
  destruct (submit_score_cases g t d u rnd s) as [[Hg Heq]|[Hg Heq]];
    rewrite Heq in Hrun; [|done].
  injection Hrun as <- <-. split.
  - destruct u; simpl; [done|]. apply generate_username_generated.
  - unfold day at 1. rewrite lookup_insert_eq. simpl. apply last_snoc.
Qed.

Lemma submit_score_username_witness :
  generated "SwiftFalcon"
  ∧ last (day {["2026-02-02"%string :=
                  [Score.mk "SwiftFalcon" 4 120 "2026-02-02" "id-1"]]}
            "2026-02-02")
    = Some (Score.mk "SwiftFalcon" 4 120 "2026-02-02" "id-1").
Proof.
  apply (submit_score_username ∅ 4 120 "2026-02-02" None (mkEntropy 0 0 "id-1")
           (Score.mk "SwiftFalcon" 4 120 "2026-02-02" "id-1")).
  vm_compute. reflexivity.
Defined.

(* ------------------------------------------------------------------ *)
(** ** The ranking *)
(* ------------------------------------------------------------------ *)

Lemma top_scores_StronglySorted (scores : list Score.t) limit :
  StronglySorted (key_ordered key_le sort_key)
    (Py.slice_to (Py.sorted Py.tuple_lt sort_key scores) limit).
Proof.
  eapply StronglySorted_prefix; [apply slice_to_prefix|].
  apply sorted_StronglySorted;
    auto using tuple_lt_le, tuple_nlt_le, key_le_trans.
Qed.

Lemma top_scores_stable (scores : list Score.t) limit k :
  filter (λ sc, sort_key sc = k)
    (Py.slice_to (Py.sorted Py.tuple_lt sort_key scores) limit)
  `prefix_of` filter (λ sc, sort_key sc = k) scores.
Proof.
  rewrite <- (filter_sorted Py.tuple_lt sort_key tuple_lt_irrefl k scores).
  apply filter_prefix, slice_to_prefix.
Qed.

(** C4: [get_leaderboard] returns, and of two entries of its output the
    one with the smaller rank has fewer guesses, or as many guesses and no
    more time. *)
Theorem leaderboard_ordering (s : Store) d limit :
  ∃ entries,
    get_leaderboard d limit s = (Return entries, s)
    ∧ ∀ a b, a ∈ entries → b ∈ entries →
        LeaderboardEntry.rank a < LeaderboardEntry.rank b →
        LeaderboardEntry.guesses a < LeaderboardEntry.guesses b
        ∨ (LeaderboardEntry.guesses a = LeaderboardEntry.guesses b
           ∧ LeaderboardEntry.time_seconds a ≤ LeaderboardEntry.time_seconds b).
Proof.
  eexists. split; [apply get_leaderboard_run|].
  intros a b (i & sa & Hi & ->)%elem_of_entries_of
    (j & sb & Hj & ->)%elem_of_entries_of Hrank.
  simpl in Hrank |- *.
  apply (StronglySorted_lookup _ _ i j sa sb
           (top_scores_StronglySorted (day s d) limit) Hi Hj).
  lia.
Qed.

Lemma leaderboard_ordering_witness :
  ∃ entries a b,
    get_leaderboard "2026-02-02" 5 scenario_A = (Return entries, scenario_A)
    ∧ a ∈ entries ∧ b ∈ entries
    ∧ LeaderboardEntry.rank a = 1 ∧ LeaderboardEntry.rank b = 3
    ∧ (LeaderboardEntry.guesses a < LeaderboardEntry.guesses b
       ∨ (LeaderboardEntry.guesses a = LeaderboardEntry.guesses b
          ∧ LeaderboardEntry.time_seconds a
            ≤ LeaderboardEntry.time_seconds b)).
Proof.
  destruct (leaderboard_ordering scenario_A "2026-02-02" 5)
    as (entries & Hrun & Hord).
  exists entries,
    (LeaderboardEntry.mk 1 "BraveOtter" 3 (Py.str_mul MARKER 3) 95),
    (LeaderboardEntry.mk 3 "SwiftFalcon" 4 (Py.str_mul MARKER 4) 120).
  assert (Hentries : entries = [
    LeaderboardEntry.mk 1 "BraveOtter" 3 (Py.str_mul MARKER 3) 95;
    LeaderboardEntry.mk 2 "CleverWolf" 3 (Py.str_mul MARKER 3) 200;
    LeaderboardEntry.mk 3 "SwiftFalcon" 4 (Py.str_mul MARKER 4) 120]).
  { vm_compute in Hrun. injection Hrun as <-. reflexivity. }
  assert (Ha : LeaderboardEntry.mk 1 "BraveOtter" 3 (Py.str_mul MARKER 3) 95
               ∈ entries).
  { rewrite Hentries. apply list_elem_of_here. }
  assert (Hb : LeaderboardEntry.mk 3 "SwiftFalcon" 4 (Py.str_mul MARKER 4) 120
               ∈ entries).
  { rewrite Hentries. do 2 apply list_elem_of_further. apply list_elem_of_here. }
  split_and!; [done..|].
  apply Hord; [done..|]. simpl. lia.
Defined.

(** C5: for a limit in 1..10, [get_leaderboard] returns exactly
    [min(limit, len(records))] entries, and their ranks, in output order,
    are 1, 2, ..., up to that number. *)
Theorem leaderboard_limit_ranks (s : Store) d limit :
  1 ≤ limit ≤ 10 →
  ∃ entries,
    get_leaderboard d limit s = (Return entries, s)
    ∧ Z.of_nat (length entries) = Z.min limit (Z.of_nat (length (day s d)))
    ∧ LeaderboardEntry.rank <$> entries
      = Z.of_nat <$> seq 1 (Z.to_nat (Z.min limit (Z.of_nat (length (day s d))))).
Proof.
  intros Hlimit. eexists. split; [apply get_leaderboard_run|].
  assert (Hlen : length (Py.slice_to
                   (Py.sorted Py.tuple_lt sort_key (day s d)) limit)
                 = Z.to_nat (Z.min limit (Z.of_nat (length (day s d))))).
  { rewrite length_slice_to by lia. by rewrite length_sorted. }
  split.
  - rewrite length_entries_of, Hlen. lia.
  - rewrite rank_entries_of, Hlen.
    rewrite <- (fmap_S_seq 0), <- list_fmap_compose.
    apply list_fmap_ext. intros i x _. simpl. lia.
Qed.

Lemma leaderboard_limit_ranks_witness :
  ∃ entries,
    get_leaderboard "2026-02-02" 2 scenario_A = (Return entries, scenario_A)
    ∧ Z.of_nat (length entries) = 2
    ∧ LeaderboardEntry.rank <$> entries = [1; 2].
Proof.
  destruct (leaderboard_limit_ranks scenario_A "2026-02-02" 2)
    as (entries & Hrun & Hlen & Hranks); [lia|].
  exists entries. split_and!; [done|exact Hlen|exact Hranks].
Defined.

(** C6: the records behind the output of [get_leaderboard] keep, key by
    key, the order in which they are stored (for every key, those of the
    output are the first ones of the day with that key, in the same
    order); and the output is determined by the day's records and the
    limit: asked twice in a row the service gives the same list twice and
    leaves the store alone, and so does any store holding the same
    records. *)
Theorem leaderboard_stable_deterministic (s : Store) d limit :
  ∃ top,
    get_leaderboard d limit s = (Return (entries_of top), s)
    ∧ (∀ k, filter (λ sc, sort_key sc = k) top
            `prefix_of` filter (λ sc, sort_key sc = k) (day s d))
    ∧ (first ← get_leaderboard d limit;
       second ← get_leaderboard d limit;
       mret (first, second)) s
      = (Return (entries_of top, entries_of top), s)
    ∧ ∀ (s2 : Store) d2, day s2 d2 = day s d →
        get_leaderboard d2 limit s2 = (Return (entries_of top), s2).
Proof.
  exists (Py.slice_to (Py.sorted Py.tuple_lt sort_key (day s d)) limit).
  split_and!.
  - apply get_leaderboard_run.
  - intros k. apply top_scores_stable.
  - unfold mbind, M_bind. by rewrite !get_leaderboard_run.
  - intros s2 d2 Hday. by rewrite get_leaderboard_run, Hday.
Qed.

Lemma leaderboard_stable_deterministic_witness :
  ∃ top,
    get_leaderboard "2026-02-02" 5 scenario_ties
    = (Return (entries_of top), scenario_ties)
    ∧ filter (λ sc, sort_key sc = (3, 95)) top
      `prefix_of` [Score.mk "Ann" 3 95 "2026-02-02" "id-1";
                   Score.mk "Cid" 3 95 "2026-02-02" "id-3"]
    ∧ get_leaderboard "2026-02-02" 5
        (exec (ClearScores (Some "2026-02-01"%string)) scenario_ties)
      = (Return (entries_of top),
         exec (ClearScores (Some "2026-02-01"%string)) scenario_ties).
Proof.
  destruct (leaderboard_stable_deterministic scenario_ties "2026-02-02" 5)
    as (top & Hrun & Hstable & _ & Hsame).
  exists top. split_and!.
  - exact Hrun.
  - exact (Hstable (3, 95)).
  - apply Hsame. vm_compute. reflexivity.
Defined.

(* ------------------------------------------------------------------ *)
(** ** Accepted submissions *)
(* ------------------------------------------------------------------ *)

(** C7: a successful [submit_score] for a day puts the record it returns
    at the end of that day's records, which are otherwise as they were
    (one record more), and leaves every other day of the store as it is. *)
Theorem submit_score_additive (s : Store) g t d u rnd sc s' :
  submit_score g t d u rnd s = (Return sc, s') →
  day s' d = day s d ++ [sc]
  ∧ length (day s' d) = S (length (day s d))
  ∧ ∀ d', d' ≠ d → s' !! d' = s !! d'.
Proof.
  intros Hrun.
  destruct (submit_score_cases g t d u rnd s) as [[Hg Heq]|[Hg Heq]];
    rewrite Heq in Hrun; [|done].
  injection Hrun as <- <-.
  assert (Hday : day (<[d := day s d ++ [score_of g t d u rnd]]> s) d
                 = day s d ++ [score_of g t d u rnd]).
  { unfold day at 1. by rewrite lookup_insert_eq. }
  split_and!.
  - exact Hday.
  - rewrite Hday, length_app. simpl. lia.
  - intros d' Hd'. by rewrite lookup_insert_ne.
Qed.

Lemma submit_score_additive_witness :
  day scenario_A "2026-02-02"
  = day first_two "2026-02-02"
    ++ [Score.mk "CleverWolf" 3 200 "2026-02-02" "id-3"]
  ∧ length (day scenario_A "2026-02-02")
    = S (length (day first_two "2026-02-02"))
  ∧ ∀ d', d' ≠ "2026-02-02"%string → scenario_A !! d' = first_two !! d'.
Proof.
  apply (submit_score_additive first_two 3 200 "2026-02-02" None
           (mkEntropy 2 2 "id-3")
           (Score.mk "CleverWolf" 3 200 "2026-02-02" "id-3") scenario_A).
  vm_compute. reflexivity.
Defined.

(* ------------------------------------------------------------------ *)
(** ** Days without submissions *)
(* ------------------------------------------------------------------ *)

(** C8: for a day that has no records, and any limit, [get_leaderboard]
    returns the empty list; it raises nothing and leaves the store alone. *)
Theorem leaderboard_empty_day (s : Store) d limit :
  day s d = [] →
  get_leaderboard d limit s = (Return [], s).
Proof.
  intros Hday. rewrite get_leaderboard_run, Hday. simpl.
  by rewrite slice_to_nil.
Qed.

Lemma leaderboard_empty_day_witness :
  get_leaderboard "2026-02-03" (-4) scenario_A = (Return [], scenario_A).
Proof. apply leaderboard_empty_day. vm_compute. reflexivity. Defined.

(* ------------------------------------------------------------------ *)
(** ** The guesses display *)
(* ------------------------------------------------------------------ *)

(** C9: every entry that [get_leaderboard] makes from a reachable store
    shows its guesses as that many markers in a row, with nothing between
    them: the number of markers in [guesses_display] is [guesses]. *)
Theorem guesses_display_law (s : Store) d limit :
  reachable s →
  ∃ entries,
    get_leaderboard d limit s = (Return entries, s)
    ∧ ∀ e, e ∈ entries →
        LeaderboardEntry.guesses_display e
        = repeat_marker (Z.to_nat (LeaderboardEntry.guesses e))
        ∧ Z.of_nat <$> marker_units (LeaderboardEntry.guesses_display e)
          = Some (LeaderboardEntry.guesses e).
Proof.
  intros Hs. eexists. split; [apply get_leaderboard_run|].
  intros e (i & sc & Hi & ->)%elem_of_entries_of. simpl.
  assert (Hg : valid_guesses sc).
  { pose proof (day_Forall _ s d (reachable_valid_guesses s Hs)) as Hall.
    rewrite Forall_forall in Hall. apply Hall.
    rewrite <- (sorted_Permutation Py.tuple_lt sort_key (day s d)).
    eapply elem_of_prefix; [|apply slice_to_prefix].
    by eapply list_elem_of_lookup_2. }
  unfold _format_guesses_emoji, Py.str_mul.
  rewrite str_repeat_marker, marker_units_repeat. simpl.
  split; [done|]. f_equal. unfold valid_guesses in Hg. lia.
Qed.

Lemma guesses_display_law_witness :
  ∃ entries e,
    get_leaderboard "2026-02-02" 1 scenario_A = (Return entries, scenario_A)
    ∧ e ∈ entries
    ∧ LeaderboardEntry.guesses e = 3
    ∧ LeaderboardEntry.guesses_display e = repeat_marker 3
    ∧ Z.of_nat <$> marker_units (LeaderboardEntry.guesses_display e) = Some 3.
Proof.
  destruct (guesses_display_law scenario_A "2026-02-02" 1 scenario_A_reachable)
    as (entries & Hrun & Hshow).
  exists entries,
    (LeaderboardEntry.mk 1 "BraveOtter" 3 (Py.str_mul MARKER 3) 95).
  assert (He : LeaderboardEntry.mk 1 "BraveOtter" 3 (Py.str_mul MARKER 3) 95
               ∈ entries).
  { vm_compute in Hrun. injection Hrun as <-. apply list_elem_of_here. }
  destruct (Hshow _ He) as [Hdisplay Hunits].
  split_and!; [done..|exact Hdisplay|exact Hunits].
Defined.

(* ------------------------------------------------------------------ *)
(** ** Clearing the store *)
(* ------------------------------------------------------------------ *)

Lemma Return_inj {A} (a b : A) (s s' : Store) :
  (Return a, s) = (Return b, s') → a = b.
Proof. by intros [= ->]. Qed.

Lemma day_delete_ne (s : Store) d d' : d' ≠ d → day (delete d s) d' = day s d'.
Proof. intros Hd. unfold day. by rewrite lookup_delete_ne. Qed.

(** X1: [clear_scores] with a date (not the empty string) never raises,
    also when the day has no records; afterwards that day has no records
    and every other day is as before, and a store without that day is
    left as it is. *)
Theorem clear_scores_day (s : Store) d :
  d ≠ ""%string →
  ∃ s', clear_scores (Some d) s = (Return tt, s')
        ∧ day s' d = []
        ∧ (∀ d', d' ≠ d → s' !! d' = s !! d')
        ∧ (s !! d = None → s' = s).
Proof.
  intros Hd. exists (delete d s). rewrite clear_scores_run. simpl.
  rewrite bool_decide_eq_false_2 by done. simpl. split_and!.
  - done.
  - unfold day. by rewrite lookup_delete_eq.
  - intros d' Hd'. by rewrite lookup_delete_ne.
  - apply delete_id.
Qed.

Lemma clear_scores_day_witness :
  ∃ s', clear_scores (Some "2026-02-02"%string) scenario_A = (Return tt, s')
        ∧ day s' "2026-02-02" = []
        ∧ (∀ d', d' ≠ "2026-02-02"%string → s' !! d' = scenario_A !! d')
        ∧ (scenario_A !! "2026-02-02"%string = None → s' = scenario_A).
Proof. apply (clear_scores_day scenario_A "2026-02-02"). discriminate. Defined.

(** X2: [clear_scores()] wipes the whole store, and so does
    [clear_scores("")], the empty string being false like [None]: right
    after either, [get_all_dates] lists no date and the leaderboard of
    every day is empty. *)
Theorem clear_scores_all (s : Store) d puzzle_date limit :
  d = None ∨ d = Some ""%string →
  (clear_scores d;;
   dates ← get_all_dates;
   entries ← get_leaderboard puzzle_date limit;
   mret (dates, entries)) s
  = (Return ([], []), ∅).
Proof.
  intros Hd. unfold mbind, M_bind.
  rewrite clear_scores_run.
  assert (Py.truthy d = false) as -> by (by destruct Hd as [->| ->]).
  cbv beta iota. unfold get_all_dates, dict_keys. cbv beta iota.
  rewrite get_leaderboard_run, map_to_list_empty. cbv beta iota.
  unfold day. rewrite lookup_empty. simpl. by rewrite slice_to_nil.
Qed.

Lemma clear_scores_all_witness :
  (clear_scores (Some ""%string);;
   dates ← get_all_dates;
   entries ← get_leaderboard "2026-02-02" 5;
   mret (dates, entries)) scenario_A
  = (Return ([], []), ∅).
Proof. apply clear_scores_all. by right. Defined.

(** X3: clearing is idempotent: a second [clear_scores] with the same
    argument returns as the first did and changes nothing more. *)
Theorem clear_scores_idempotent (s : Store) d :
  (clear_scores d;; clear_scores d) s = clear_scores d s.
Proof.
  unfold mbind, M_bind. rewrite !clear_scores_run.
  destruct (Py.truthy d); [|done].
  destruct d as [k|]; simpl; [|done]. by rewrite delete_delete_eq.
Qed.

(* ------------------------------------------------------------------ *)
(** ** How the store files its records *)
(* ------------------------------------------------------------------ *)

Lemma exec_filed c (s : Store) : map_Forall filed s → map_Forall filed (exec c s).
Proof.
  intros Hs. destruct c as [g t d u rnd|d limit| |d]; cbn [exec].
  - destruct (submit_score_cases g t d u rnd s) as [[Hg ->]|[Hg ->]]; simpl;
      [|done].
    apply map_Forall_insert_2; [|done]. split.
    + by destruct (day s d).
    + apply Forall_app. split; [|by repeat constructor].
      unfold day. destruct (s !! d) as [l|] eqn:Hd; simpl; [|done].
      by destruct (Hs d l Hd).
  - by rewrite get_leaderboard_run.
  - done.
  - rewrite clear_scores_run. simpl. destruct (Py.truthy d).
    + destruct d as [k|]; simpl; [|done]. by apply map_Forall_delete.
    + apply map_Forall_empty.
Qed.

Lemma reachable_filed (s : Store) : reachable s → map_Forall filed s.
Proof.
  induction 1 as [|s c _ IH]; [apply map_Forall_empty|by apply exec_filed].
Qed.

Lemma store_filing_aux (s : Store) d scores sc :
  reachable s → s !! d = Some scores → sc ∈ scores → Score.puzzle_date sc = d.
Proof.
  intros Hs Hd Hsc. destruct (reachable_filed s Hs d scores Hd) as [_ Hall].
  rewrite Forall_forall in Hall. by apply Hall.
Qed.

(** X4: in every reachable store, a date that is a key of [_scores] has
    at least one record, and every record is stored under the key that is
    its own [puzzle_date]. *)
Theorem store_filing (s : Store) d scores :
  reachable s → s !! d = Some scores →
  scores ≠ [] ∧ ∀ sc, sc ∈ scores → Score.puzzle_date sc = d.
Proof.
  intros Hs Hd. destruct (reachable_filed s Hs d scores Hd) as [Hne Hall].
  split; [done|]. by rewrite Forall_forall in Hall.
Qed.

Lemma store_filing_witness :
  first_two !! "2026-02-02"%string
  = Some [Score.mk "SwiftFalcon" 4 120 "2026-02-02" "id-1";
          Score.mk "BraveOtter" 3 95 "2026-02-02" "id-2"]
  ∧ ∀ sc, sc ∈ [Score.mk "SwiftFalcon" 4 120 "2026-02-02" "id-1";
                Score.mk "BraveOtter" 3 95 "2026-02-02" "id-2"] →
          Score.puzzle_date sc = "2026-02-02"%string.
Proof.
  assert (Hd : first_two !! "2026-02-02"%string
               = Some [Score.mk "SwiftFalcon" 4 120 "2026-02-02" "id-1";
                       Score.mk "BraveOtter" 3 95 "2026-02-02" "id-2"])
    by (vm_compute; reflexivity).
  split; [exact Hd|].
  refine (proj2 (store_filing first_two _ _ _ Hd)).
  unfold first_two. repeat apply reachable_step. apply reachable_init.
Defined.

(** X5: on a reachable store [get_all_dates] lists every date once, and
    the dates it lists are exactly those that have at least one record;
    the store is left as it is. *)
Theorem get_all_dates_listing (s : Store) :
  reachable s →
  ∃ dates, get_all_dates s = (Return dates, s)
           ∧ NoDup dates
           ∧ ∀ d, d ∈ dates ↔ day s d ≠ [].
Proof.
  intros Hs. eexists. split_and!; [done|apply NoDup_fst_map_to_list|].
  intros d. rewrite list_elem_of_fmap. unfold day. split.
  - intros ([d' scores] & -> & Hin). apply elem_of_map_to_list in Hin.
    simpl. rewrite Hin. simpl. by destruct (reachable_filed s Hs _ _ Hin).
  - destruct (s !! d) as [scores|] eqn:Hd; simpl; [|done].
    intros _. exists (d, scores). split; [done|]. by apply elem_of_map_to_list.
Qed.

Lemma get_all_dates_listing_witness :
  ∃ dates, get_all_dates scenario_A = (Return dates, scenario_A)
           ∧ NoDup dates
           ∧ ("2026-02-02"%string ∈ dates)
           ∧ ("2026-02-03"%string ∉ dates).
Proof.
  destruct (get_all_dates_listing scenario_A scenario_A_reachable)
    as (dates & Hrun & Hnodup & Hdates).
  exists dates. split_and!; [done..| |].
  - apply Hdates. vm_compute. discriminate.
  - intros Hin. apply Hdates in Hin. apply Hin. vm_compute. reflexivity.
Defined.

(* ------------------------------------------------------------------ *)
(** ** What the leaderboard shows *)
(* ------------------------------------------------------------------ *)

Lemma elem_of_entries_of_2 top sc :
  sc ∈ top → ∃ rank, make_entry rank sc ∈ entries_of top.
Proof.
  intros (i & Hi)%list_elem_of_lookup_1. exists (1 + Z.of_nat i).
  apply list_elem_of_lookup. exists i. by rewrite lookup_entries_of, Hi.
Qed.

Lemma top_scores_split (scores : list Score.t) limit :
  ∃ rest,
    Py.sorted Py.tuple_lt sort_key scores
    = Py.slice_to (Py.sorted Py.tuple_lt sort_key scores) limit ++ rest
    ∧ ∀ a b, a ∈ Py.slice_to (Py.sorted Py.tuple_lt sort_key scores) limit →
        b ∈ rest → key_le (sort_key a) (sort_key b).
Proof.
  destruct (slice_to_prefix (Py.sorted Py.tuple_lt sort_key scores) limit)
    as [rest Hrest].
  exists rest. split; [done|].
  pose proof (sorted_StronglySorted Py.tuple_lt key_le sort_key
                tuple_lt_le tuple_nlt_le key_le_trans scores) as Hsorted.
  rewrite Hrest in Hsorted. apply StronglySorted_app in Hsorted as (Hcross & _).
  intros a b Ha Hb. by apply Hcross.
Qed.

Lemma elem_of_top_scores (scores : list Score.t) limit sc :
  sc ∈ Py.slice_to (Py.sorted Py.tuple_lt sort_key scores) limit → sc ∈ scores.
Proof.
  intros Hsc. rewrite <- (sorted_Permutation Py.tuple_lt sort_key scores).
  eapply elem_of_prefix; [done|apply slice_to_prefix].
Qed.

Lemma tuple_lt_not_le a b : Py.tuple_lt a b = true → ¬ key_le b a.
Proof. unfold Py.tuple_lt, key_le. destruct (Z.eqb_spec a.1 b.1); lia. Qed.

(** X6: the cut keeps the best: a record of the day that beats an entry
    of the board (fewer guesses, or as many in less time) is on the board
    itself. *)
Theorem leaderboard_keeps_best (s : Store) d limit :
  ∃ entries,
    get_leaderboard d limit s = (Return entries, s)
    ∧ ∀ e sc, e ∈ entries → sc ∈ day s d →
        Py.tuple_lt (sort_key sc)
          (LeaderboardEntry.guesses e, LeaderboardEntry.time_seconds e) = true →
        ∃ rank, make_entry rank sc ∈ entries.
Proof.
  eexists. split; [apply get_leaderboard_run|].
  intros e sc (i & se & Hi & ->)%elem_of_entries_of Hsc Hlt. simpl in Hlt.
  destruct (top_scores_split (day s d) limit) as (rest & Hsplit & Hcross).
  rewrite <- (sorted_Permutation Py.tuple_lt sort_key (day s d)) in Hsc.
  rewrite Hsplit in Hsc. apply elem_of_app in Hsc as [Hsc|Hsc].
  - by apply elem_of_entries_of_2.
  - apply tuple_lt_not_le in Hlt. destruct Hlt.
    apply Hcross; [|done]. by eapply list_elem_of_lookup_2.
Qed.

Lemma leaderboard_keeps_best_witness :
  ∃ entries rank,
    get_leaderboard "2026-02-02" 2 scenario_A = (Return entries, scenario_A)
    ∧ LeaderboardEntry.mk 2 "CleverWolf" 3 (Py.str_mul MARKER 3) 200 ∈ entries
    ∧ make_entry rank (Score.mk "BraveOtter" 3 95 "2026-02-02" "id-2")
      ∈ entries.
Proof.
  destruct (leaderboard_keeps_best scenario_A "2026-02-02" 2)
    as (entries & Hrun & Hbest).
  assert (He : LeaderboardEntry.mk 2 "CleverWolf" 3 (Py.str_mul MARKER 3) 200
               ∈ entries).
  { rewrite get_leaderboard_run in Hrun. apply Return_inj in Hrun as <-.
    vm_compute. apply list_elem_of_further, list_elem_of_here. }
  destruct (Hbest _ (Score.mk "BraveOtter" 3 95 "2026-02-02" "id-2") He)
    as [rank Hrank].
  - vm_compute. apply list_elem_of_further, list_elem_of_here.
  - reflexivity.
  - exists entries, rank. split_and!; done.
Defined.

(** X7: with a limit that is at least the number of records of the day,
    the board is made from all of them, each once. *)
Theorem leaderboard_complete (s : Store) d limit :
  Z.of_nat (length (day s d)) ≤ limit →
  ∃ top,
    get_leaderboard d limit s = (Return (entries_of top), s)
    ∧ top ≡ₚ day s d.
Proof.
  intros Hlimit. eexists. split; [apply get_leaderboard_run|].
  unfold Py.slice_to. destruct (Z.leb_spec 0 limit); [|lia].
  rewrite take_ge by (rewrite length_sorted; lia).
  apply sorted_Permutation.
Qed.

Lemma leaderboard_complete_witness :
  ∃ top,
    get_leaderboard "2026-02-02" 3 scenario_A
    = (Return (entries_of top), scenario_A)
    ∧ top ≡ₚ day scenario_A "2026-02-02".
Proof. apply leaderboard_complete. vm_compute. discriminate. Defined.

Lemma first_entry_best (s : Store) d limit sc :
  1 ≤ limit → sc ∈ day s d →
  ∃ e rest,
    get_leaderboard d limit s = (Return (e :: rest), s)
    ∧ LeaderboardEntry.rank e = 1
    ∧ (LeaderboardEntry.guesses e < Score.guesses sc
       ∨ (LeaderboardEntry.guesses e = Score.guesses sc
          ∧ LeaderboardEntry.time_seconds e ≤ Score.time_seconds sc)).
Proof.
  intros Hlimit Hsc. rewrite get_leaderboard_run.
  pose proof (sorted_StronglySorted Py.tuple_lt key_le sort_key
                tuple_lt_le tuple_nlt_le key_le_trans (day s d)) as Hsorted.
  rewrite <- (sorted_Permutation Py.tuple_lt sort_key (day s d)) in Hsc.
  destruct (Py.sorted Py.tuple_lt sort_key (day s d)) as [|x l] eqn:Hl.
  { by apply not_elem_of_nil in Hsc. }
  unfold Py.slice_to. destruct (Z.leb_spec 0 limit); [|lia].
  destruct (Z.to_nat limit) as [|n] eqn:Hn; [lia|]. simpl.
  eexists _, _. split_and!; [done..|].
  apply StronglySorted_cons in Hsorted as [Hx _].
  simpl. apply elem_of_cons in Hsc as [->|Hsc]; [lia|].
  rewrite Forall_forall in Hx. exact (Hx sc Hsc).
Qed.

(** X8: with a limit of at least 1, the board of a day that has records
    starts with rank 1, and no record of the day beats that entry. *)
Theorem leaderboard_first_is_best (s : Store) d limit sc :
  1 ≤ limit → sc ∈ day s d →
  ∃ e rest,
    get_leaderboard d limit s = (Return (e :: rest), s)
    ∧ LeaderboardEntry.rank e = 1
    ∧ (LeaderboardEntry.guesses e < Score.guesses sc
       ∨ (LeaderboardEntry.guesses e = Score.guesses sc
          ∧ LeaderboardEntry.time_seconds e ≤ Score.time_seconds sc)).
Proof. apply first_entry_best. Qed.

Lemma leaderboard_first_is_best_witness :
  ∃ e rest,
    get_leaderboard "2026-02-02" 1 scenario_A = (Return (e :: rest), scenario_A)
    ∧ LeaderboardEntry.rank e = 1
    ∧ (LeaderboardEntry.guesses e < 4
       ∨ (LeaderboardEntry.guesses e = 4
          ∧ LeaderboardEntry.time_seconds e ≤ 120)).
Proof.
  apply (leaderboard_first_is_best scenario_A "2026-02-02" 1
           (Score.mk "SwiftFalcon" 4 120 "2026-02-02" "id-1")); [lia|].
  vm_compute. apply list_elem_of_here.
Defined.

(** X9: the number of entries for any limit: [min(limit, n)] of the [n]
    records for a limit from 0 on, and for a negative limit [-k] all but
    the last [k] of the sorted records ([n - k], or none if [k > n]). *)
Theorem leaderboard_length (s : Store) d limit :
  ∃ entries,
    get_leaderboard d limit s = (Return entries, s)
    ∧ Z.of_nat (length entries)
      = if 0 <=? limit then Z.min limit (Z.of_nat (length (day s d)))
        else Z.max 0 (Z.of_nat (length (day s d)) + limit).
Proof.
  eexists. split; [apply get_leaderboard_run|].
  rewrite length_entries_of. unfold Py.slice_to.
  destruct (Z.leb_spec 0 limit); rewrite length_take, length_sorted; lia.
Qed.

(** X10: a score that is accepted is on the board of its day as soon as
    the limit leaves room for all the records of the day: the board asked
    for right after the submission has an entry with the username, the
    guesses and the time of the new record. *)
Theorem submit_then_leaderboard (s : Store) g t d u rnd limit :
  1 ≤ g ≤ 6 → Z.of_nat (length (day s d)) < limit →
  ∃ entries s' e,
    (submit_score g t d u rnd;; get_leaderboard d limit) s
    = (Return entries, s')
    ∧ e ∈ entries
    ∧ LeaderboardEntry.username e = default (generate_username rnd) u
    ∧ LeaderboardEntry.guesses e = g
    ∧ LeaderboardEntry.time_seconds e = t.
Proof.
  intros Hg Hlimit. unfold mbind, M_bind.
  rewrite submit_score_Return by done. cbv beta iota.
  rewrite get_leaderboard_run.
  assert (Hday : day (<[d := day s d ++ [score_of g t d u rnd]]> s) d
                 = day s d ++ [score_of g t d u rnd]).
  { unfold day at 1. by rewrite lookup_insert_eq. }
  rewrite Hday.
  destruct (elem_of_entries_of_2
              (Py.slice_to (Py.sorted Py.tuple_lt sort_key
                              (day s d ++ [score_of g t d u rnd])) limit)
              (score_of g t d u rnd)) as [rank Hrank].
  { unfold Py.slice_to. destruct (Z.leb_spec 0 limit); [|lia].
    rewrite take_ge
      by (rewrite length_sorted, length_app; simpl; lia).
    rewrite sorted_Permutation. apply elem_of_app. right.
    apply list_elem_of_here. }
  eexists _, _, _. split_and!; [done|exact Hrank|done..].
Qed.

Lemma submit_then_leaderboard_witness :
  ∃ entries s' e,
    (submit_score 2 61 "2026-02-02" (Some "Dee"%string) (mkEntropy 0 0 "id-4");;
     get_leaderboard "2026-02-02" 5) scenario_A
    = (Return entries, s')
    ∧ e ∈ entries
    ∧ LeaderboardEntry.username e = "Dee"%string
    ∧ LeaderboardEntry.guesses e = 2
    ∧ LeaderboardEntry.time_seconds e = 61.
Proof.
  apply (submit_then_leaderboard scenario_A 2 61 "2026-02-02"
           (Some "Dee"%string) (mkEntropy 0 0 "id-4") 5); [lia|].
  vm_compute. reflexivity.
Defined.

(** X11: the board of a day shows records of that day and nothing else:
    on a reachable store every entry has the username, the guesses and the
    time of a record that is stored for the day asked for and carries that
    date. *)
Theorem leaderboard_from_day (s : Store) d limit :
  reachable s →
  ∃ entries,
    get_leaderboard d limit s = (Return entries, s)
    ∧ ∀ e, e ∈ entries →
        ∃ sc, sc ∈ day s d
              ∧ Score.puzzle_date sc = d
              ∧ LeaderboardEntry.username e = Score.username sc
              ∧ LeaderboardEntry.guesses e = Score.guesses sc
              ∧ LeaderboardEntry.time_seconds e = Score.time_seconds sc.
Proof.
  intros Hs. eexists. split; [apply get_leaderboard_run|].
  intros e (i & sc & Hi & ->)%elem_of_entries_of.
  assert (Hsc : sc ∈ day s d).
  { eapply elem_of_top_scores. by eapply list_elem_of_lookup_2. }
  exists sc. split_and!; [done| |done..].
  unfold day in Hsc. destruct (s !! d) as [scores|] eqn:Hd; simpl in Hsc.
  - by apply (store_filing_aux s d scores).
  - by apply not_elem_of_nil in Hsc.
Qed.

Lemma leaderboard_from_day_witness :
  ∃ entries sc,
    get_leaderboard "2026-02-02" 1 scenario_A = (Return entries, scenario_A)
    ∧ sc ∈ day scenario_A "2026-02-02"
    ∧ Score.puzzle_date sc = "2026-02-02"%string
    ∧ Score.username sc = "BraveOtter"%string
    ∧ Score.guesses sc = 3
    ∧ Score.time_seconds sc = 95.
Proof.
  destruct (leaderboard_from_day scenario_A "2026-02-02" 1
              scenario_A_reachable) as (entries & Hrun & Hfrom).
  assert (He : LeaderboardEntry.mk 1 "BraveOtter" 3 (Py.str_mul MARKER 3) 95
               ∈ entries).
  { rewrite get_leaderboard_run in Hrun. apply Return_inj in Hrun as <-.
    vm_compute. apply list_elem_of_here. }
  destruct (Hfrom _ He) as (sc & Hsc & Hdate & Hname & Hg & Ht).
  exists entries, sc. simpl in Hname, Hg, Ht. split_and!; done.
Defined.

(* ------------------------------------------------------------------ *)
(** ** The generated usernames *)
(* ------------------------------------------------------------------ *)


(* ------------------------------------------------------------------ *)
(** ** Dicts of the models *)
(* ------------------------------------------------------------------ *)

(** X13: [Score.from_dict(score.to_dict())] gives the score back, its
    [id] included: no new id is drawn when the dict has one. *)
Theorem Score_dict_round_trip (self : Score.t) rnd :
  Score_from_dict (Score_to_dict self) rnd = Return (of_score self).
Proof. destruct self. vm_compute. reflexivity. Qed.

(** X14: [Score.from_dict] needs the four keys [username], [guesses],
    [time_seconds] and [puzzle_date]: it raises [KeyError] for one of them
    that the dict lacks, and otherwise returns a score with the values of
    the dict; [id] is optional, a dict without it gets a fresh one. *)
Theorem Score_from_dict_keys (data : gmap string json) rnd :
  match Score_from_dict data rnd with
  | Return sc =>
      data !! "username"%string = Some (Dyn.username sc)
      ∧ data !! "guesses"%string = Some (Dyn.guesses sc)
      ∧ data !! "time_seconds"%string = Some (Dyn.time_seconds sc)
      ∧ data !! "puzzle_date"%string = Some (Dyn.puzzle_date sc)
      ∧ Dyn.id sc = default (JStr (uuid4 rnd)) (data !! "id"%string)
  | Raise e =>
      ∃ key, e = KeyError key
             ∧ key ∈ ["username"; "guesses"; "time_seconds";
                      "puzzle_date"]%string
             ∧ data !! key = None
  end.
Proof.
  unfold Score_from_dict, getitem, mbind, result_bind, mret, result_ret.
  destruct (data !! "username"%string) eqn:Hu;
    [|exists "username"%string; split_and!; [done|set_solver|done]].
  destruct (data !! "guesses"%string) eqn:Hg;
    [|exists "guesses"%string; split_and!; [done|set_solver|done]].
  destruct (data !! "time_seconds"%string) eqn:Ht;
    [|exists "time_seconds"%string; split_and!; [done|set_solver|done]].
  destruct (data !! "puzzle_date"%string) eqn:Hd;
    [|exists "puzzle_date"%string; split_and!; [done|set_solver|done]].
  done.
Qed.

(** X15: [LeaderboardEntry.to_dict] loses nothing: entries with the same
    dict are the same entry. *)
Theorem LeaderboardEntry_to_dict_inj (e1 e2 : LeaderboardEntry.t) :
  LeaderboardEntry_to_dict e1 = LeaderboardEntry_to_dict e2 → e1 = e2.
Proof.
  intros H. destruct e1, e2.
  pose proof (f_equal (λ m : gmap string json, m !! "rank"%string) H) as H1.
  pose proof (f_equal (λ m : gmap string json, m !! "username"%string) H)
    as H2.
  pose proof (f_equal (λ m : gmap string json, m !! "guesses"%string) H)
    as H3.
  pose proof (f_equal (λ m : gmap string json, m !! "guesses_display"%string)
                H) as H4.
  pose proof (f_equal (λ m : gmap string json, m !! "time_seconds"%string) H)
    as H5.
  vm_compute in H1, H2, H3, H4, H5. congruence.
Qed.

Lemma LeaderboardEntry_to_dict_inj_witness :
  LeaderboardEntry.mk 1 "BraveOtter" 3 (Py.str_mul MARKER 3) 95
  = make_entry 1 (Score.mk "BraveOtter" 3 95 "2026-02-02" "id-2").
Proof. apply LeaderboardEntry_to_dict_inj. reflexivity. Defined.

(* ------------------------------------------------------------------ *)
(** ** The endpoints *)
(* ------------------------------------------------------------------ *)

Lemma missing_fields_nil (m : gmap string json) :
  filter (λ field, m !! field = None) required_fields = []
  ↔ is_Some (m !! "guesses"%string) ∧ is_Some (m !! "time_seconds"%string)
    ∧ is_Some (m !! "puzzle_date"%string).
Proof.
  unfold required_fields. rewrite !filter_cons, filter_nil.
  destruct (m !! "guesses"%string), (m !! "time_seconds"%string),
    (m !! "puzzle_date"%string); simpl;
    repeat case_decide; try done; split; try done;
    intros (? & ? & ?); by repeat match goal with H : is_Some None |- _ =>
                                      destruct (is_Some_None H) end.
Qed.

(** A body that is let through makes the service store the record and
    comes back as a 201 with the dict of that record. *)
Lemma api_submit_score_accepted data g t d rnd (s : Store) :
  accepted data g t d →
  api_submit_score data rnd s
  = ((ScoreCreated (Score_to_dict (score_of g t d None rnd)), 201),
     <[d := day s d ++ [score_of g t d None rnd]]> s).
Proof.
  intros (m & vg & vt & -> & Hg & Hvg & Hgr & Ht & Hvt & Htr & Hd & Hlen).
  unfold api_submit_score, handle, submit_score_try.
  assert (size m ≠ 0%nat) as Hsize.
  { intros ->%map_size_empty_inv. by rewrite lookup_empty in Hg. }
  apply Nat.eqb_neq in Hsize. rewrite Hsize.
  assert (filter (λ field, m !! field = None) required_fields = []) as ->.
  { apply missing_fields_nil. rewrite Hg, Ht, Hd. eauto. }
  cbn [length Nat.eqb negb]. unfold mbind, M_bind, getitem.
  rewrite Hg, Ht, Hd. cbv beta iota. rewrite Hvg, Hvt. cbn [as_str].
  destruct (Z.leb_spec 1 g), (Z.leb_spec g 6); try lia. cbn [andb negb].
  destruct (Z.ltb_spec t 0); [lia|]. rewrite Hlen. cbn [Z.eqb Pos.eqb negb].
  rewrite submit_score_Return by done. done.
Qed.

(** Every other body is answered with a 400 and leaves the store as it
    is. *)
Lemma api_submit_score_cases data rnd (s : Store) :
  (∃ g t d, accepted data g t d)
  ∨ ∃ error, api_submit_score data rnd s = ((Failure error, 400), s).
Proof.
  unfold api_submit_score, handle, submit_score_try.
  destruct data as [m|]; [|by right; eexists].
  destruct (size m =? 0)%nat; [by right; eexists|].
  destruct (filter (λ field, m !! field = None) required_fields) as [|f fs]
    eqn:Hmissing; [|by right; eexists].
  apply missing_fields_nil in Hmissing as ([vg Hg] & [vt Ht] & [vd Hd]).
  cbn [length Nat.eqb negb]. unfold mbind, M_bind, getitem.
  rewrite Hg, Ht, Hd. cbv beta iota.
  destruct (as_int vg) as [g|] eqn:Hvg; [|by right; eexists].
  destruct (Z.leb_spec 1 g), (Z.leb_spec g 6); cbn [andb negb];
    try by right; eexists.
  destruct (as_int vt) as [t|] eqn:Hvt; [|by right; eexists].
  destruct (Z.ltb_spec t 0); [by right; eexists|].
  destruct (as_str vd) as [d|] eqn:Hvd; [|by right; eexists].
  destruct (Z.eqb_spec (str_len d) 10); cbn [negb]; [|by right; eexists].
  left. exists g, t, d, m, vg, vt.
  destruct vd; try discriminate. injection Hvd as ->.
  split_and!; done || lia.
Qed.

Lemma date_shaped_check d :
  negb (str_len d =? 10)
  || negb (bool_decide (str_at d 4 = Some "-"%string))
  || negb (bool_decide (str_at d 7 = Some "-"%string)) = false
  ↔ date_shaped d.
Proof.
  unfold date_shaped.
  destruct (Z.eqb_spec (str_len d) 10); simpl; [|intuition congruence].
  repeat case_bool_decide; simpl; intuition congruence.
Qed.

Lemma api_get_leaderboard_shaped d limit (s : Store) :
  date_shaped d →
  api_get_leaderboard d limit s
  = ((Leaderboard d
        (LeaderboardEntry_to_dict
         <$> entries_of
               (Py.slice_to (Py.sorted Py.tuple_lt sort_key (day s d))
                  (Z.min (Z.max 1 limit) 10))), 200), s).
Proof.
  intros Hd%date_shaped_check.
  unfold api_get_leaderboard, handle, get_leaderboard_try. rewrite Hd.
  unfold mbind, M_bind. by rewrite get_leaderboard_run.
Qed.

Lemma api_get_leaderboard_unshaped d limit (s : Store) :
  ¬ date_shaped d →
  api_get_leaderboard d limit s
  = ((Failure "Invalid date format. Use YYYY-MM-DD", 400), s).
Proof.
  intros Hd. unfold api_get_leaderboard, handle, get_leaderboard_try.
  destruct (negb (str_len d =? 10)
            || negb (bool_decide (str_at d 4 = Some "-"%string))
            || negb (bool_decide (str_at d 7 = Some "-"%string))) eqn:Hcheck;
    [done|].
  by apply date_shaped_check in Hcheck.
Qed.

Lemma date_shaped_dec d : date_shaped d ∨ ¬ date_shaped d.
Proof.
  destruct (negb (str_len d =? 10)
            || negb (bool_decide (str_at d 4 = Some "-"%string))
            || negb (bool_decide (str_at d 7 = Some "-"%string))) eqn:Hcheck.
  - right. intros Hd%date_shaped_check. congruence.
  - left. by apply date_shaped_check.
Qed.




(** X18: the [get_leaderboard] view never changes the store. For a date
    of 10 characters with dashes as fifth and eighth it answers 200 with
    the date and a board of [min(limit', n)] dicts, [n] the number of
    records of the day and [limit'] the limit brought into 1..10; for any
    other date it answers 400. *)
Theorem get_leaderboard_view d limit (s : Store) :
  (date_shaped d
   ∧ ∃ board,
       api_get_leaderboard d limit s = ((Leaderboard d board, 200), s)
       ∧ Z.of_nat (length board)
         = Z.min (Z.min (Z.max 1 limit) 10) (Z.of_nat (length (day s d))))
  ∨ (¬ date_shaped d
     ∧ api_get_leaderboard d limit s
       = ((Failure "Invalid date format. Use YYYY-MM-DD", 400), s)).
Proof.
  destruct (date_shaped_dec d) as [Hd|Hd]; [left|right]; split; try done.
  - eexists. split; [by apply api_get_leaderboard_shaped|].
    rewrite length_fmap, length_entries_of, length_slice_to by lia.
    rewrite length_sorted. lia.
  - by apply api_get_leaderboard_unshaped.
Qed.

Lemma get_leaderboard_view_cases d limit (s : Store) :
  (∃ board, api_get_leaderboard d limit s = ((Leaderboard d board, 200), s))
  ∨ api_get_leaderboard d limit s
    = ((Failure "Invalid date format. Use YYYY-MM-DD", 400), s).
Proof.
  destruct (date_shaped_dec d) as [Hd|Hd]; [left|right].
  - eexists. by apply api_get_leaderboard_shaped.
  - by apply api_get_leaderboard_unshaped.
Qed.

Lemma serve_posted r (s : Store) :
  map_Forall (λ d scores, Forall (posted d) scores) s →
  map_Forall (λ d scores, Forall (posted d) scores) (serve r s).2.
Proof.
  intros Hs. destruct r as [data rnd|d limit]; cbn [serve].
  - destruct (api_submit_score_cases data rnd s)
      as [(g & t & d & Hacc)|[error ->]]; [|done].
    rewrite (api_submit_score_accepted data g t d) by done. simpl.
    destruct Hacc as (m & vg & vt & _ & _ & _ & Hg & _ & _ & Ht & _ & Hlen).
    apply map_Forall_insert_2; [|done]. apply Forall_app. split.
    + unfold day. destruct (s !! d) as [l|] eqn:Hd; simpl; [|done].
      exact (Hs d l Hd).
    + repeat constructor; try done; simpl; try lia.
      apply generate_username_generated.
  - destruct (get_leaderboard_view_cases d limit s) as [[b ->]| ->]; done.
Qed.

(** X19: when the two endpoints are all that touches the service, every
    stored record has guesses in 1..6, a time that is not negative, a
    generated username and a date of 10 characters, the one it is stored
    under. *)
Theorem served_records (s : Store) d scores sc :
  served s → s !! d = Some scores → sc ∈ scores →
  (1 ≤ Score.guesses sc ≤ 6)
  ∧ 0 ≤ Score.time_seconds sc
  ∧ Score.puzzle_date sc = d
  ∧ str_len d = 10
  ∧ generated (Score.username sc).
Proof.
  intros Hs Hd Hsc.
  assert (Hall : map_Forall (λ d scores, Forall (posted d) scores) s).
  { clear Hd Hsc. induction Hs as [|s r _ IH];
      [apply map_Forall_empty|by apply serve_posted]. }
  specialize (Hall d scores Hd). rewrite Forall_forall in Hall.
  exact (Hall sc Hsc).
Qed.

Lemma served_records_witness :
  (1 ≤ 1 ≤ 6) ∧ 0 ≤ 75
  ∧ "2026-02-02"%string = "2026-02-02"%string
  ∧ str_len "2026-02-02" = 10
  ∧ generated "SwiftFalcon".
Proof.
  apply (served_records served_example "2026-02-02"
           [Score.mk "SwiftFalcon" 1 75 "2026-02-02" "id-1"]
           (Score.mk "SwiftFalcon" 1 75 "2026-02-02" "id-1")).
  - unfold served_example. repeat apply served_step. apply served_init.
  - vm_compute. reflexivity.
  - apply list_elem_of_here.
Defined.

(** X20: the two views do not agree on what a date is. A score for a date
    of 10 characters that lacks a dash in fifth or eighth place is
    accepted and stored, and no request can read it back: the
    [get_leaderboard] view answers 400 for that date, whatever the
    limit. *)
Theorem post_get_date_mismatch data g t d rnd (s : Store) limit :
  accepted data g t d → ¬ date_shaped d →
  ∃ sc s',
    api_submit_score data rnd s = ((ScoreCreated sc, 201), s')
    ∧ day s' d ≠ []
    ∧ api_get_leaderboard d limit s'
      = ((Failure "Invalid date format. Use YYYY-MM-DD", 400), s').
Proof.
  intros Hacc Hd. eexists _, _.
  split; [by apply api_submit_score_accepted|]. split.
  - unfold day at 1. rewrite lookup_insert_eq. simpl. by destruct (day s d).
  - by apply api_get_leaderboard_unshaped.
Qed.

Lemma post_get_date_mismatch_witness :
  ∃ sc s',
    api_submit_score
      (Some (score_body (JInt 2) (JInt 40) (JStr "20260202xx")))
      (mkEntropy 3 3 "id-2") ∅
    = ((ScoreCreated sc, 201), s')
    ∧ day s' "20260202xx" ≠ []
    ∧ api_get_leaderboard "20260202xx" 5 s'
      = ((Failure "Invalid date format. Use YYYY-MM-DD", 400), s').
Proof.
  apply (post_get_date_mismatch _ 2 40).
  - exists (score_body (JInt 2) (JInt 40) (JStr "20260202xx")),
      (JInt 2), (JInt 40).
    split_and!; try reflexivity; lia.
  - intros (_ & Hdash & _). vm_compute in Hdash. discriminate.
Defined.



(** X22: no request takes anything away: after a request, whatever its
    answer, every day of the store starts with the records it had, in the
    same order. *)
Theorem serve_keeps_records r (s : Store) d :
  day s d `prefix_of` day (serve r s).2 d.
Proof.
  destruct r as [data rnd|d' limit]; cbn [serve].
  - destruct (api_submit_score_cases data rnd s)
      as [(g & t & d' & Hacc)|[error ->]]; [|done].
    rewrite (api_submit_score_accepted data g t d') by done. simpl.
    destruct (decide (d' = d)) as [->|Hd].
    + unfold day at 2. rewrite lookup_insert_eq. simpl. by eexists.
    + unfold day at 2. by rewrite lookup_insert_ne.
  - destruct (get_leaderboard_view_cases d' limit s) as [[b ->]| ->]; done.
Qed.
